(** * USB device-mode controller driver (soc/nxp/usb): setup dispatcher,
    transfer engine and configuration run loop, as a shallow embedding.

    Integers are [Z] with their Go width written out where it matters
    ([uint8], [uint16], [uint32], [int] on 32-bit ARM).  Byte buffers are
    [list Z] of 8-bit values; a Go slice that may be [nil] is an
    [option (list Z)] ([None] is [nil]).  Go [error] values are
    [option err] ([None] is [nil]). *)

From Stdlib Require Import ZArith List Bool Lia String Ascii.
Import ListNotations.
Open Scope Z_scope.

(** ** Shared constants (setup.go, part_004) *)

Definition OUT : Z := 0.
Definition IN : Z := 1.

(** Standard request codes (setup.go) *)
Definition GET_STATUS : Z := 0.
Definition CLEAR_FEATURE : Z := 1.
Definition SET_FEATURE : Z := 3.
Definition SET_ADDRESS : Z := 5.
Definition GET_DESCRIPTOR : Z := 6.
Definition SET_DESCRIPTOR : Z := 7.
Definition GET_CONFIGURATION : Z := 8.
Definition SET_CONFIGURATION : Z := 9.
Definition GET_INTERFACE : Z := 10.
Definition SET_INTERFACE : Z := 11.
Definition SYNCH_FRAME : Z := 12.
Definition HID_SET_IDLE : Z := 10.
Definition HID_GET_DESCRIPTOR : Z := 34.

(** Descriptor types (setup.go) *)
Definition DEVICE : Z := 1.
Definition CONFIGURATION : Z := 2.
Definition STRING : Z := 3.
Definition INTERFACE : Z := 4.
Definition ENDPOINT : Z := 5.
Definition DEVICE_QUALIFIER : Z := 6.
Definition HID_REPORT : Z := 34.

(** Feature selectors (setup.go) *)
Definition ENDPOINT_HALT : Z := 0.

(** Modelled from the spec: [SET_ETHERNET_PACKET_FILTER] is declared in a
    file of the package that is not under src/ (the spec only names it as
    "a vendor extension (Ethernet packet filter) that is unconditionally
    acked"); its value is the USB CDC request code 0x43, distinct from every
    other case of the standard-request switch, as Go requires. *)
Definition SET_ETHERNET_PACKET_FILTER : Z := 67.

(** ** Setup packets (setup.go) *)

Record SetupData := mkSetup {
  RequestType : Z;  (* uint8 *)
  Request : Z;      (* uint8 *)
  Value : Z;        (* uint16 *)
  Index : Z;        (* uint16 *)
  Length : Z        (* uint16 *)
}.

(** Field widths guaranteed by the Go types. *)
Definition setup_wf (s : SetupData) : Prop :=
  0 <= RequestType s < 256 /\ 0 <= Request s < 256 /\
  0 <= Value s < 65536 /\ 0 <= Index s < 65536 /\ 0 <= Length s < 65536.

(** [swap]: BigEndian.PutUint16 then LittleEndian.Uint16 of [Value]. *)
Definition swap (s : SetupData) : SetupData :=
  let v := Value s in
  let b0 := Z.land (Z.shiftr v 8) 255 in
  let b1 := Z.land v 255 in
  mkSetup (RequestType s) (Request s) (Z.lor b0 (Z.shiftl b1 8)) (Index s) (Length s).

(** [trim] *)
Definition trim (buf : list Z) (wLength : Z) : list Z :=
  if wLength <? Z.of_nat (List.length buf) then firstn (Z.to_nat wLength) buf else buf.

(** [hex.DecodeString]: pairs of hex digits; decoding stops at the first
    invalid digit or at an odd trailing digit (the error is only logged by
    [getDescriptor], so only the decoded bytes are kept). *)
Definition hex_digit (c : ascii) : option Z :=
  let n := Z.of_nat (nat_of_ascii c) in
  if (48 <=? n) && (n <=? 57) then Some (n - 48)
  else if (97 <=? n) && (n <=? 102) then Some (n - 87)
  else if (65 <=? n) && (n <=? 70) then Some (n - 55)
  else None.

Fixpoint hex_decode (s : string) : list Z :=
  match s with
  | String a (String b rest) =>
      match hex_digit a, hex_digit b with
      | Some x, Some y => Z.lor (Z.shiftl x 4) y :: hex_decode rest
      | _, _ => []
      end
  | _ => []
  end.

Definition hid_report_hex : string :=
  "05010906a101050719e029e71500250175019508810295017508810395037501050819012903910295017505910395067508150026a4000507190029a48100c0".

(** ** Caller-owned device model *)

(** Error values the dispatcher and the transfer engine produce. *)
Inductive err :=
| ErrUnsupportedDescriptor (t : Z)  (* "unsupported descriptor type" *)
| ErrInvalidStringIndex (i : Z)     (* "invalid string descriptor index" *)
| ErrUnsupportedRequest (r : Z)     (* "unsupported request code" *)
| ErrTransfer (tag : nat)           (* an error returned by [transfer] *)
| ErrDevice (tag : nat)             (* an error of the caller's device model *)
| ErrPanic.                         (* Go runtime panic (index out of range) *)

(** [Device]: descriptor blobs ([Descriptor.Bytes()], [Qualifier.Bytes()]),
    the string table, [Configuration(index)], the optional [Setup]
    override, the current configuration value and alternate setting, and
    the endpoint tasks each configuration declares. *)
Record Device := mkDevice {
  Descriptor : list Z;
  Qualifier : list Z;
  Strings : list (list Z);
  Configuration : Z -> list Z * option err;
  Setup : option (SetupData -> list Z * bool * bool * option err);
  ConfigurationValue : Z;  (* uint8 *)
  AlternateSetting : Z;    (* uint8 *)
  Endpoints : Z -> list Z
}.

Definition set_conf (d : Device) (v : Z) : Device :=
  mkDevice (Descriptor d) (Qualifier d) (Strings d) (Configuration d) (Setup d)
    v (AlternateSetting d) (Endpoints d).

Definition set_alt (d : Device) (v : Z) : Device :=
  mkDevice (Descriptor d) (Qualifier d) (Strings d) (Configuration d) (Setup d)
    (ConfigurationValue d) v (Endpoints d).

(** ** Setup dispatcher (setup.go) over the endpoint-0 operations *)

Module Dispatch.

(** Hardware operations the dispatcher performs, in program order.
    [OpTransfer n dir ioc buf] is one call of [transfer] (part_004);
    its result is an effect supplied by the environment ([results]),
    the transfer itself is modelled in [Transfer] below. *)
Inductive op :=
| OpTransfer (n dir : Z) (ioc : bool) (buf : option (list Z))
| OpStall (n dir : Z)
| OpReset (n dir : Z)
| OpSetAddress (addr : Z)
| OpPanic.

Record USt := mkUSt {
  dev : Device;
  trace : list op;
  results : list (option err)  (* error results of the next transfers *)
}.

Definition UM (A : Type) : Type := USt -> A * USt.

Definition ret {A} (a : A) : UM A := fun s => (a, s).
Definition bind {A B} (m : UM A) (f : A -> UM B) : UM B :=
  fun s => let (a, s') := m s in f a s'.

Declare Scope um_scope.
Notation "x <- m ;; k" := (bind m (fun x => k))
  (at level 61, m at next level, right associativity) : um_scope.
Notation "m ;;; k" := (bind m (fun _ => k))
  (at level 61, right associativity) : um_scope.
Open Scope um_scope.

Definition emit (o : op) : UM unit :=
  fun s => (tt, mkUSt (dev s) (trace s ++ [o]) (results s)).

Definition get_dev : UM Device := fun s => (dev s, s).
Definition put_dev (d : Device) : UM unit :=
  fun s => (tt, mkUSt d (trace s) (results s)).

(** [hw.transfer(n, dir, ioc, buf)]: recorded, error taken from the
    environment (no error once the supplied results are exhausted). *)
Definition transfer (n dir : Z) (ioc : bool) (buf : option (list Z)) : UM (option err) :=
  fun s =>
    let s' := mkUSt (dev s) (trace s ++ [OpTransfer n dir ioc buf]) in
    match results s with
    | [] => (None, s' [])
    | r :: rs => (r, s' rs)
    end.

(** [ack] (part_004) *)
Definition ack (n : Z) : UM (option err) := transfer n IN false None.

(** [tx] (part_004): IN transfer, then for endpoint 0 the status-phase OUT
    transfer when the IN transfer succeeded. *)
Definition tx (n : Z) (ioc : bool) (data : list Z) : UM (option err) :=
  e <- transfer n IN ioc (Some data) ;;
  if (match e with None => true | Some _ => false end) && (n =? 0)
  then transfer n OUT false None
  else ret e.

(** [stall] (part_004) *)
Definition stall (n dir : Z) : UM unit := emit (OpStall n dir).

(** [reset] (part_004): no data toggle reset on endpoint 0. *)
Definition reset (n dir : Z) : UM unit :=
  if n =? 0 then ret tt else emit (OpReset n dir).

Definition go_panic : UM (option err) := emit OpPanic ;;; ret (Some ErrPanic).

(** [getDescriptor] *)
Definition getDescriptor (setup : SetupData) : UM (option err) :=
  let bDescriptorType := Z.land (Value setup) 255 in
  let index := Z.shiftr (Value setup) 8 in
  d <- get_dev ;;
  if bDescriptorType =? DEVICE then
    tx 0 false (trim (Descriptor d) (Length setup))
  else if bDescriptorType =? CONFIGURATION then
    let '(conf, e) := Configuration d index in
    match e with
    | None => tx 0 false (trim conf (Length setup))
    | Some _ => ret e
    end
  else if bDescriptorType =? STRING then
    (* int(index+1): uint16 addition *)
    if Z.of_nat (List.length (Strings d)) <? (index + 1) mod 65536 then
      stall 0 IN ;;; ret (Some (ErrInvalidStringIndex index))
    else
      match nth_error (Strings d) (Z.to_nat index) with
      | Some str => tx 0 false (trim str (Length setup))
      | None => go_panic
      end
  else if bDescriptorType =? DEVICE_QUALIFIER then
    tx 0 false (Qualifier d)
  else if bDescriptorType =? HID_REPORT then
    let r := hex_decode hid_report_hex in
    tx 0 false (trim r (Length setup))
  else
    stall 0 IN ;;; ret (Some (ErrUnsupportedDescriptor bDescriptorType)).

(** [handleStandardSetup] *)
Definition handleStandardSetup (setup : SetupData) : UM (option err) :=
  let req := Request setup in
  if req =? GET_STATUS then
    tx 0 false [0; 0]
  else if req =? CLEAR_FEATURE then
    if Value setup =? ENDPOINT_HALT then
      let n := Z.land (Index setup) 15 in
      let dir := Z.land (Index setup) 128 / 128 in
      reset n dir ;;; ack 0
    else
      stall 0 IN ;;; ret None
  else if req =? SET_ADDRESS then
    let v := Value setup in
    let addr := Z.lor (Z.land ((Z.shiftl v 8) mod 65536) 65280) (Z.shiftr v 8) in
    emit (OpSetAddress addr) ;;; ack 0
  else if req =? GET_DESCRIPTOR then
    getDescriptor setup
  else if req =? GET_CONFIGURATION then
    d <- get_dev ;; tx 0 false [ConfigurationValue d]
  else if req =? SET_CONFIGURATION then
    d <- get_dev ;;
    put_dev (set_conf d ((Z.shiftr (Value setup) 8) mod 256)) ;;; ack 0
  else if req =? GET_INTERFACE then
    d <- get_dev ;; tx 0 false [AlternateSetting d]
  else if req =? SET_INTERFACE then
    d <- get_dev ;;
    put_dev (set_alt d ((Z.shiftr (Value setup) 8) mod 256)) ;;; ack 0
  else if req =? SET_ETHERNET_PACKET_FILTER then
    ack 0
  else
    stall 0 IN ;;; ret (Some (ErrUnsupportedRequest req)).

(** [handleClassSpecificSetup] *)
Definition handleClassSpecificSetup (setup : SetupData) : UM (option err) :=
  if Request setup =? HID_SET_IDLE then ack 0
  else stall 0 IN ;;; ret (Some (ErrUnsupportedRequest (Request setup))).

Definition is_nil_err (e : option err) : bool :=
  match e with None => true | Some _ => false end.

(** The [if dev.Setup != nil { ... }] block of [handleSetup]: [Some e]
    when it returns [e] (its own [err], which shadows the named result),
    [None] when dispatch continues. *)
Definition runOverride (s : SetupData) : UM (option (option err)) :=
  d <- get_dev ;;
  match Setup d with
  | None => ret None
  | Some f =>
    let '(in_, ack_, done, e) := f s in
    match e with
    | Some _ => stall 0 IN ;;; ret (Some e)
    | None =>
      e' <- (if negb (List.length in_ =? 0)%nat then tx 0 false in_
             else if ack_ then ack 0 else ret None) ;;
      if done || negb (is_nil_err e') then ret (Some e') else ret None
    end
  end.

(** [handleSetup]: the handlers' results are discarded and the final bare
    [return] returns the named result, still [nil]. *)
Definition handleSetup (setup : option SetupData) : UM (option err) :=
  match setup with
  | None => ret None
  | Some s =>
    o <- runOverride s ;;
    match o with
    | Some e => ret e
    | None =>
      (if RequestType s =? 33 then handleClassSpecificSetup s
       else handleStandardSetup s) ;;;
      ret None
    end
  end.

End Dispatch.

(** ** Transfer engine (part_004: buildDTD, checkDTD, transfer) *)

Module Transfer.

Definition DTD_PAGES : Z := 5.
Definition DTD_PAGE_SIZE : Z := 4096.
Definition TOKEN_TOTAL : Z := 16.
Definition TOKEN_ACTIVE : Z := 7.
Definition dtdLength : Z := DTD_PAGES * DTD_PAGE_SIZE.

Definition u32 (x : Z) : Z := x mod 4294967296.
(** [int(x)] of a [uint32] on 32-bit ARM. *)
Definition int32 (x : Z) : Z :=
  let y := u32 x in if 2147483648 <=? y then y - 4294967296 else y.

(** [reg.Get(addr, pos, mask)] applied to the value read. *)
Definition get_bits (v pos mask : Z) : Z := Z.land (Z.shiftr v pos) mask.

(** The hardware side: what a read of each location returns at (abstract)
    time [t]; time advances by one at every read.  [rd_dtd_token i] is the
    token word of the [i]-th dTD of the chain; [rd_done] tells whether the
    configuration's [hw.done] channel has been closed; [rd_dma] is the DMA
    region read back by [dma.Read]. *)
Record Hw := mkHw {
  rd_prime : nat -> Z;
  rd_stat : nat -> Z;
  rd_complete : nat -> Z;
  rd_qh_token : nat -> Z;
  rd_dtd_token : nat -> nat -> Z;
  rd_done : nat -> bool;
  rd_dma : list Z
}.

(** Events, in program order. *)
Inductive tev :=
| EAllocPages (size : Z)          (* dma.Alloc of the transfer buffer *)
| EBuild (i : nat) (ofs size : Z) (* buildDTD of chunk [i] *)
| ELink (i j : nat)               (* dtd i next := dtd j *)
| EClear                          (* hw.clear(n, dir) *)
| ENext (i : nat)                 (* dQH next := dtd i *)
| EPrime                          (* reg.Set(hw.prime, pos) *)
| EClearComplete                  (* reg.Write(hw.complete, 1<<pos) *)
| EInactive (i : nat)             (* active bit of dtd i observed cleared *)
| ECancelled (i : nat)            (* wait on dtd i ended by hw.done *)
| ECopy (len : Z)                 (* dma.Read into out = buf[0:len] *)
| EFreeDtd (i : nat)              (* deferred dma.Free(dtd._dtd) *)
| EFreePages.                     (* deferred dma.Free(pages) *)

Record TSt := mkTSt { clock : nat; events : list tev }.

(** Computations read the hardware, log events and may not return: an
    unbounded wait polls at most [fuel] times, [None] is "has not
    returned". *)
Definition TM (A : Type) : Type := nat -> TSt -> option (A * TSt).

Definition tret {A} (a : A) : TM A := fun _ s => Some (a, s).
Definition tbind {A B} (m : TM A) (f : A -> TM B) : TM B :=
  fun fuel s => match m fuel s with
                | Some (a, s') => f a fuel s'
                | None => None
                end.

Declare Scope tm_scope.
Notation "x <- m ;; k" := (tbind m (fun x => k))
  (at level 61, m at next level, right associativity) : tm_scope.
Notation "' p <- m ;; k" := (tbind m (fun x => match x with p => k end))
  (at level 61, p pattern, m at next level, right associativity) : tm_scope.
Notation "m ;;; k" := (tbind m (fun _ => k))
  (at level 61, right associativity) : tm_scope.
Open Scope tm_scope.

Definition tick (s : TSt) : TSt := mkTSt (S (clock s)) (events s).

Definition emit (e : tev) : TM unit :=
  fun _ s => Some (tt, mkTSt (clock s) (events s ++ [e])).

Definition read (rd : nat -> Z) : TM Z :=
  fun _ s => Some (u32 (rd (clock s)), tick s).

(** Modelled from the spec: the polling primitives of internal/reg are not
    under src/; the spec (sections 4.3, 5 and 9) describes them as
    busy-wait register polling, with a deadline or cancellable. *)

(** [reg.Wait]: poll until the condition holds, without deadline. *)
Fixpoint poll (k : nat) (rd : nat -> Z) (p : Z -> bool) (s : TSt) : option TSt :=
  match k with
  | O => None
  | S k' => if p (u32 (rd (clock s))) then Some (tick s) else poll k' rd p (tick s)
  end.

Definition wait (rd : nat -> Z) (p : Z -> bool) : TM unit :=
  fun fuel s => match poll fuel rd p s with
                | Some s' => Some (tt, s')
                | None => None
                end.

(** [reg.WaitFor(timeout, ...)]: at most [d] polls (one per time unit of
    the deadline); [true] when the condition was seen. *)
Fixpoint poll_for (d : nat) (rd : nat -> Z) (p : Z -> bool) (s : TSt) : bool * TSt :=
  match d with
  | O => (false, s)
  | S d' => if p (u32 (rd (clock s))) then (true, tick s) else poll_for d' rd p (tick s)
  end.

Definition wait_for (d : nat) (rd : nat -> Z) (p : Z -> bool) : TM bool :=
  fun _ s => Some (poll_for d rd p s).

(** [reg.WaitSignal(done, ...)]: poll until the condition holds ([true]) or
    the channel is closed ([false]). *)
Section Signal.
Variable done : nat -> bool.

Fixpoint poll_signal (k : nat) (rd : nat -> Z) (p : Z -> bool) (s : TSt)
  : option (bool * TSt) :=
  match k with
  | O => None
  | S k' =>
    if p (u32 (rd (clock s))) then Some (true, tick s)
    else if done (clock s) then Some (false, tick s)
    else poll_signal k' rd p (tick s)
  end.
End Signal.

Definition wait_signal (done : nat -> bool) (rd : nat -> Z) (p : Z -> bool) : TM bool :=
  fun fuel s => poll_signal done fuel rd p s.

(** Transfer errors. *)
Inductive terr :=
| TErrTimeout                        (* "transfer completion timed out" *)
| TErrStatus (i : nat) (token : Z)    (* "dTD[i] error status" *)
| TErrPartial (i : nat) (n size : Z). (* "dTD[i] partial transfer" *)

(** The software-side fields of a dTD: position in the chain, [_buf]
    (offset in the transfer buffer) and [_size]. *)
Record dTD := mkDTD { d_idx : nat; d_buf : Z; d_size : Z }.

(** Result of [transfer]: the returned slice [out], the returned error,
    the caller's buffer after the call (the copy-back writes through
    [out], which aliases it) and the local [size] (bytes moved). *)
Inductive xres :=
| XDone (out : option (list Z)) (e : option terr) (caller_buf : option (list Z)) (moved : Z)
| XPanic.

Section WithHw.
Variable hw : Hw.

Definition bit_clear (pos : Z) (v : Z) : bool := get_bits v pos 1 =? 0.
Definition bit_set (pos : Z) (v : Z) : bool := get_bits v pos 1 =? 1.

(** [nextDTD]: wait for the dQH status bits (6, 7) to clear, set next. *)
Definition nextDTD (idx : nat) : TM unit :=
  wait (rd_qh_token hw) (fun v => get_bits v 6 3 =? 0) ;;;
  emit (ENext idx).

(** The dTD-building loop of [transfer]
    ([for add := true; add; add = i < transferSize]); [k] bounds the
    number of iterations. *)
Fixpoint build_loop (k : nat) (pos : Z) (i : Z) (idx : nat) (tsize : Z) : TM (list dTD) :=
  match k with
  | O => tret []
  | S k' =>
    let size := if tsize <? i + dtdLength then tsize - i else dtdLength in
    emit (EBuild idx i size) ;;;
    prime <- (if Nat.eqb idx 0 then tret true
              else emit (ELink (pred idx) idx) ;;;
                   p <- read (rd_prime hw) ;;
                   st <- read (rd_stat hw) ;;
                   tret ((get_bits p pos 1 =? 0) && (get_bits st pos 1 =? 0))) ;;
    (if prime then emit EClear ;;; nextDTD idx ;;; emit EPrime else tret tt) ;;;
    rest <- (if i + dtdLength <? tsize
             then build_loop k' pos (i + dtdLength) (S idx) tsize
             else tret []) ;;
    tret (mkDTD idx i size :: rest)
  end.

Definition inactive (v : Z) : bool := get_bits v TOKEN_ACTIVE 1 =? 0.

(** [checkDTD] *)
Fixpoint checkDTD (n dir : Z) (dtds : list dTD) (size : Z) : TM (Z * option terr) :=
  match dtds with
  | [] => tret (size, None)
  | d :: ds =>
    let i := d_idx d in
    let token := rd_dtd_token hw i in
    (if n =? 0 then
       (* WaitFor(time.Second, ...); log of reg.Read(token); reg.Wait *)
       wait_for 1000 token inactive ;;; read token ;;; wait token inactive ;;;
       emit (EInactive i)
     else
       ok <- wait_signal (rd_done hw) token inactive ;;
       emit (if ok then EInactive i else ECancelled i)) ;;;
    dtdToken <- read token ;;
    if negb (Z.land dtdToken 255 =? 0) then tret (0, Some (TErrStatus i dtdToken))
    else
      let rest := Z.shiftr dtdToken TOKEN_TOTAL in
      let moved := int32 (d_size d - rest) in
      if (dir =? IN) && (0 <? rest) then tret (0, Some (TErrPartial i moved (d_size d)))
      else checkDTD n dir ds (int32 (size + moved))
  end.

Fixpoint free_dtds (dtds : list dTD) : TM unit :=
  match dtds with
  | [] => tret tt
  | d :: ds => emit (EFreeDtd (d_idx d)) ;;; free_dtds ds
  end.

Definition is_none {A} (o : option A) : bool :=
  match o with None => true | Some _ => false end.

(** [if dir == OUT && buf == nil { buf = make([]byte, dtdLength) }] *)
Definition tbuf (dir : Z) (buf : option (list Z)) : option (list Z) :=
  if (dir =? OUT) && is_none buf then Some (repeat 0 (Z.to_nat dtdLength)) else buf.

(** [len(buf)] *)
Definition tsize_of (buf : option (list Z)) : Z :=
  Z.of_nat (List.length (match buf with Some b => b | None => [] end)).

(** The completion wait of [transfer]: a 20 ms deadline on endpoint 0,
    otherwise until completion or cancellation.  Its error is the value
    [err] holds before [checkDTD] overwrites it. *)
Definition wait_complete (n pos : Z) : TM (option terr) :=
  if n =? 0 then
    complete <- wait_for 20 (rd_complete hw) (bit_set pos) ;;
    tret (if complete then None else Some TErrTimeout)
  else
    _ <- wait_signal (rd_done hw) (rd_complete hw) (bit_set pos) ;;
    tret None.

(** [if n != 0 && dir == OUT && buf != nil { out = buf[0:size];
    dma.Read(pages, 0, out) }] and the return; [buf[0:size]] panics when
    [size] is negative or beyond the buffer. *)
Definition copy_out (n dir : Z) (buf buf' : option (list Z)) (transferSize size : Z)
    (e : option terr) : TM xres :=
  if negb (n =? 0) && (dir =? OUT) && negb (is_none buf') then
    if (0 <=? size) && (size <=? transferSize) then
      let out := firstn (Z.to_nat size) (rd_dma hw) in
      emit (ECopy size) ;;;
      tret (XDone (Some out) e
              (match buf with
               | Some b => Some (out ++ skipn (Z.to_nat size) b)
               | None => None
               end) size)
    else tret XPanic
  else tret (XDone None e buf size).

(** [transfer] *)
Definition transfer (n dir : Z) (ioc : bool) (buf : option (list Z)) : TM xres :=
  let pos := dir * 16 + n in
  let buf' := tbuf dir buf in
  let transferSize := tsize_of buf' in
  emit (EAllocPages transferSize) ;;;
  dtds <- build_loop (Z.to_nat (transferSize / dtdLength) + 1) pos 0 0 transferSize ;;
  wait (rd_prime hw) (bit_clear pos) ;;;
  _ <- wait_complete n pos ;;
  emit EClearComplete ;;;
  (* [size, err := checkDTD(...)] assigns the named result [err] *)
  '(size, e) <- checkDTD n dir dtds 0 ;;
  r <- copy_out n dir buf buf' transferSize size e ;;
  (* deferred frees, last registered first *)
  free_dtds (rev dtds) ;;;
  emit EFreePages ;;;
  tret r.

End WithHw.

End Transfer.

(** ** Device-mode run loop (device.go: Start) *)

Module RunLoop.

(** An endpoint task of a configuration, listening on channel [t_chan]. *)
Record task := mkTask { t_chan : nat; t_conf : Z; t_ep : Z }.

Inductive lev :=
| LReset                          (* hw.Reset() after a bus reset *)
| LClose (ch : nat)               (* close(hw.done) *)
| LJoin (tasks : list task)       (* wg.Wait(): these tasks have returned *)
| LStart (conf : Z) (tasks : list task). (* startEndpoints *)

Record LSt := mkLSt {
  conf : Z;                 (* the loop's local [conf] *)
  done : option nat;        (* hw.done ([None] is nil) *)
  next_chan : nat;          (* fresh channel names *)
  running : list task;      (* tasks counted in the WaitGroup *)
  levents : list lev;
  ust : Dispatch.USt
}.

Definition with_ust (ls : LSt) (u : Dispatch.USt) : LSt :=
  mkLSt (conf ls) (done ls) (next_chan ls) (running ls) (levents ls) u.

Definition with_conf (ls : LSt) (c : Z) : LSt :=
  mkLSt c (done ls) (next_chan ls) (running ls) (levents ls) (ust ls).

(** Modelled from the spec: [startEndpoints] is not under src/; the spec
    (sections 4.5 and 5) has it start one task per endpoint declared by
    the selected configuration, all associated with a fresh cancellation
    signal of the new configuration. *)
Definition startEndpoints (ls : LSt) (c : Z) : LSt :=
  let ch := next_chan ls in
  let ts := map (fun ep => mkTask ch c ep) (Endpoints (Dispatch.dev (ust ls)) c) in
  mkLSt (conf ls) (Some ch) (S ch) ts (levents ls ++ [LStart c ts]) (ust ls).

(** [close(hw.done); wg.Wait()]; the join returns once every counted task
    has returned (spec, section 5: cancellation makes their waits return). *)
Definition stop_events (ls : LSt) : list lev :=
  match done ls with
  | Some ch => [LClose ch; LJoin (running ls)]
  | None => []
  end.

Definition stop_endpoints (ls : LSt) : LSt :=
  match done ls with
  | Some _ =>
    mkLSt (conf ls) (done ls) (next_chan ls) [] (levents ls ++ stop_events ls) (ust ls)
  | None => ls
  end.

(** One iteration of the [for] loop of [Start]: [bus_reset] is the value of
    USBSTS_URI, [ready] the result of the 10 ms wait for a setup packet and
    [raw] the setup snapshot of the EP0 OUT queue head ([getSetup] swaps
    it; its register writes are not logged). *)
Definition iteration (ls : LSt) (bus_reset ready : bool) (raw : SetupData) : LSt :=
  let ls1 :=
    if bus_reset then
      let u := ust ls in
      mkLSt 0 (done ls) (next_chan ls) (running ls) (levents ls ++ [LReset])
        (Dispatch.mkUSt (set_conf (Dispatch.dev u) 0) (Dispatch.trace u) (Dispatch.results u))
    else ls in
  if negb ready then ls1 else
  let s := swap raw in
  let u' := snd (Dispatch.handleSetup (Some s) (ust ls1)) in
  let ls2 := with_ust ls1 u' in
  let v := ConfigurationValue (Dispatch.dev u') in
  if v =? conf ls2 then ls2
  else
    let ls3 := with_conf ls2 v in
    startEndpoints (stop_endpoints ls3) v.

(** The state [Start] maintains: the local [conf] mirrors the device's
    configuration value, and the running tasks are exactly those of the
    current (unclosed) [hw.done] channel. *)
Definition inv (ls : LSt) : Prop :=
  conf ls = ConfigurationValue (Dispatch.dev (ust ls)) /\
  (done ls = None -> running ls = []) /\
  (forall t, In t (running ls) -> done ls = Some (t_chan t)).

End RunLoop.

(** ** Concrete inputs *)

Module Inputs.
Import Dispatch.

(** An 18-byte device descriptor and a 10-byte device qualifier. *)
Definition dev_descriptor : list Z :=
  [18; 1; 0; 2; 0; 0; 0; 64; 81; 4; 1; 0; 0; 1; 1; 2; 3; 1].
Definition dev_qualifier : list Z := [10; 6; 0; 2; 0; 0; 0; 64; 1; 0].

Definition dev0 : Device :=
  mkDevice dev_descriptor dev_qualifier [[4; 3; 9; 4]; [4; 3; 65; 0]; [4; 3; 66; 0]]
    (fun _ => ([9; 2; 9; 0], None)) None 0 0 (fun c => if c =? 1 then [1; 2] else [3]).

Definition ust0 : USt := mkUSt dev0 [] [].

(** GET_DESCRIPTOR(DEVICE_QUALIFIER) asking for 2 bytes, and the same for
    DEVICE ([Value] as seen after [swap]: type in the low byte). *)
Definition get_qualifier_2 : SetupData := mkSetup 128 GET_DESCRIPTOR 6 0 2.
Definition get_device_2 : SetupData := mkSetup 128 GET_DESCRIPTOR 1 0 2.

(** A standard request the dispatcher does not implement (SYNCH_FRAME). *)
Definition synch_frame : SetupData := mkSetup 130 SYNCH_FRAME 0 129 2.

(** A class request (bit 5 of bmRequestType set) to an endpoint
    recipient, bmRequestType 0x22. *)
Definition class_req_ep : SetupData := mkSetup 34 HID_SET_IDLE 0 1 0.

End Inputs.

Module HwInputs.
Import Transfer.

(** Hardware that completes everything at once: prime and status bits
    clear, every completion bit set, every dTD inactive with nothing left. *)
Definition hw_good : Hw :=
  mkHw (fun _ => 0) (fun _ => 0) (fun _ => 4294967295) (fun _ => 0)
    (fun _ _ => 0) (fun _ => false) [7; 8; 9; 10].

(** Hardware whose first dTD never becomes inactive and whose completion
    bit never rises. *)
Definition hw_stuck : Hw :=
  mkHw (fun _ => 0) (fun _ => 0) (fun _ => 0) (fun _ => 0)
    (fun _ _ => 128) (fun _ => false) [].

(** Hardware where dTD 0 completes with a non-zero error status and dTD 1
    stays active. *)
Definition hw_err : Hw :=
  mkHw (fun _ => 0) (fun _ => 0) (fun _ => 4294967295) (fun _ => 0)
    (fun i _ => if Nat.eqb i 0 then 1 else 128) (fun _ => false) [].

(** Hardware whose completion bit never rises while the dTDs do finish:
    the 20 ms completion deadline of endpoint 0 expires. *)
Definition hw_late : Hw :=
  mkHw (fun _ => 0) (fun _ => 0) (fun _ => 0) (fun _ => 0)
    (fun _ _ => 0) (fun _ => false) [].

Definition st0 : TSt := mkTSt 0 [].

End HwInputs.

Module LoopInputs.
Import Dispatch RunLoop Inputs.

(** Configuration 1 running with its two endpoint tasks on channel 0. *)
Definition ls_conf1 : LSt :=
  mkLSt 1 (Some 0%nat) 1%nat [mkTask 0 1 1; mkTask 0 1 2] []
    (mkUSt (set_conf dev0 1) [] []).

(** SET_CONFIGURATION(2) as read from the queue head (before [swap]). *)
Definition set_config_2_raw : SetupData := mkSetup 0 SET_CONFIGURATION 2 0 0.

End LoopInputs.

(** ** Endpoint queue head read-back (part_004: qh; setup.go: getSetup) *)

Module QueueHead.

(** [binary.LittleEndian.Uint16] and [Uint32] of a byte slice. *)
Definition le16 (b : list Z) : Z := Z.lor (nth 0 b 0) (Z.shiftl (nth 1 b 0) 8).
Definition le32 (b : list Z) : Z :=
  Z.lor (Z.lor (Z.lor (nth 0 b 0) (Z.shiftl (nth 1 b 0) 8)) (Z.shiftl (nth 2 b 0) 16))
    (Z.shiftl (nth 3 b 0) 24).

(** [b[ofs:ofs+n]] *)
Definition field (b : list Z) (ofs n : nat) : list Z := firstn n (skipn ofs b).

(** [dQH]: Info, Current, Next, Token, Buffer[5], a reserved word, the
    8-byte [Setup] (at byte 40) and four reserved words: 64 bytes. *)
Record dQH := mkDQH {
  q_Info : Z; q_Current : Z; q_Next : Z; q_Token : Z;
  q_Buffer : list Z;
  q_Setup : SetupData
}.

(** [qh]: [binary.Read] (little-endian) of the 64 bytes [buf] read back
    by [dma.Read] from the queue head; blank fields are skipped. *)
Definition qh (buf : list Z) : dQH :=
  mkDQH (le32 (field buf 0 4)) (le32 (field buf 4 4)) (le32 (field buf 8 4))
    (le32 (field buf 12 4))
    (map (fun k => le32 (field buf (16 + 4 * k) 4)) (seq 0 5))
    (mkSetup (nth 40 buf 0) (nth 41 buf 0) (le16 (field buf 42 2))
       (le16 (field buf 44 2)) (le16 (field buf 46 2))).

(** [getSetup]: the [Setup] field of the EP0 OUT queue head, swapped
    (the status clear and FIFO flush register writes are not logged). *)
Definition getSetup (buf : list Z) : SetupData := swap (q_Setup (qh buf)).

End QueueHead.

(** ** DCP key RAM loading (part_004: setKeyData, SetKey) *)

Module DCP.

(** [aes.BlockSize] *)
Definition BlockSize : Z := 16.

(** A Go byte slice: its elements and the rest of its backing array up
    to its capacity. *)
Record slice := mkSlice { s_elems : list Z; s_spare : list Z }.

(** [s[lo:hi]]; [None] is the out-of-range panic. *)
Definition subslice (s : slice) (lo hi : Z) : option (list Z) :=
  if (0 <=? lo) && (lo <=? hi) &&
     (hi <=? Z.of_nat (List.length (s_elems s) + List.length (s_spare s)))
  then Some (firstn (Z.to_nat (hi - lo)) (skipn (Z.to_nat lo) (s_elems s ++ s_spare s)))
  else None.

(** Register accesses of [setKeyData], in program order: the package
    mutex, [reg.Write] and [reg.Move]. *)
Inductive kev :=
| KLock
| KUnlock
| KWrite (r v : Z)
| KMove (dst src : Z).

Inductive kerr :=
| KErrIndex   (* "key index must be between 0 and 3" *)
| KErrSize.   (* "invalid key size" *)

Inductive kres := KOk | KErr (e : kerr) | KPanic.

(** [bits.SetN] and the register and field constants [KEY_INDEX],
    [KEY_SUBWORD], [DCP_KEY], [DCP_KEYDATA] are declared outside src/;
    they are parameters here ([setN x pos mask v] is the new value of
    [x]). *)
Section Keys.
Variable setN : Z -> Z -> Z -> Z -> Z.
Variables KEY_INDEX KEY_SUBWORD DCP_KEY DCP_KEYDATA : Z.

(** [for subword < 4 { ... }]; [k] bounds the iterations. *)
Fixpoint key_loop (k : nat) (key : option slice) (addr keyLocation subword : Z)
  : list kev * kres :=
  match k with
  | O => ([], KOk)
  | S k' =>
    if subword <? 4 then
      let off := subword * 4 in
      let kl := setN keyLocation KEY_SUBWORD 3 subword in
      match key with
      | Some s =>
        match subslice s off (off + 4) with
        | Some b =>
          let '(evs, r) := key_loop k' key addr kl (subword + 1) in
          (KWrite DCP_KEY kl :: KWrite DCP_KEYDATA (QueueHead.le32 b) :: evs, r)
        | None => ([KWrite DCP_KEY kl], KPanic)
        end
      | None =>
        let '(evs, r) := key_loop k' key addr kl (subword + 1) in
        (KWrite DCP_KEY kl :: KMove DCP_KEYDATA (Transfer.u32 (addr + off)) :: evs, r)
      end
    else ([], KOk)
  end.

(** [setKeyData]: the deferred [mux.Unlock] also runs when the loop
    panics. *)
Definition setKeyData (index : Z) (key : option slice) (addr : Z) : list kev * kres :=
  if (index <? 0) || (3 <? index) then ([], KErr KErrIndex)
  else if (match key with
           | Some s => BlockSize <? Z.of_nat (List.length (s_elems s))
           | None => false
           end) then ([], KErr KErrSize)
  else
    let keyLocation := setN 0 KEY_INDEX 3 index in
    let '(evs, r) := key_loop 4 key addr keyLocation 0 in
    (KLock :: evs ++ [KUnlock], r).

(** [SetKey] *)
Definition SetKey (index : Z) (key : option slice) : list kev * kres :=
  setKeyData index key 0.

End Keys.

End DCP.

(** ** Observations on setup traces and key words *)

Module TraceObserve.
Import Dispatch.

(** [m] only appends operations other than a panic to the trace. *)
Definition no_panic {A} (m : UM A) : Prop :=
  forall st, exists ops, trace (snd (m st)) = trace st ++ ops /\ ~ In OpPanic ops.

(** The bytes of a 32-bit word, least significant first
    ([binary.LittleEndian.PutUint32]). *)
Definition le_bytes (w : Z) : list Z :=
  [Z.land w 255; Z.land (Z.shiftr w 8) 255; Z.land (Z.shiftr w 16) 255;
   Z.land (Z.shiftr w 24) 255].

(** Allocation and free events of a transfer. *)
Definition resource_ev (e : Transfer.tev) : Prop :=
  match e with
  | Transfer.EAllocPages _ | Transfer.EFreeDtd _ | Transfer.EFreePages => True
  | _ => False
  end.

End TraceObserve.

(** ** Observations on transfer traces *)

Module Observe.
Import Transfer.

(** Sizes of the dTDs built, in order. *)
Definition built (l : list tev) : list Z :=
  flat_map (fun e => match e with EBuild _ _ sz => [sz] | _ => [] end) l.

Definition not_free (e : tev) : Prop :=
  match e with EFreeDtd _ => False | _ => True end.

(** The chunk sizes the build loop of [transfer] steps through. *)
Fixpoint chunks (k : nat) (i tsize : Z) : list Z :=
  match k with
  | O => []
  | S k' =>
    (if tsize <? i + dtdLength then tsize - i else dtdLength) ::
    (if i + dtdLength <? tsize then chunks k' (i + dtdLength) tsize else [])
  end.

Definition sum (l : list Z) : Z := fold_right Z.add 0 l.

Definition wait_event (e : tev) : Prop := exists i, e = EInactive i \/ e = ECancelled i.

End Observe.

(** * Properties of the setup dispatcher *)

Module DispatchFacts.
Import Dispatch Inputs.

Lemma trim_length (buf : list Z) (w : Z) :
  0 <= w -> Z.of_nat (List.length (trim buf w)) = Z.min (Z.of_nat (List.length buf)) w.
Proof.
  intros Hw. unfold trim. destruct (w <? Z.of_nat (List.length buf)) eqn:E.
  - apply Z.ltb_lt in E. rewrite length_firstn, Nat2Z.inj_min, Z2Nat.id by lia. lia.
  - apply Z.ltb_ge in E. lia.
Qed.

(** C1 (code bug): the DEVICE_QUALIFIER case hands the whole qualifier
    blob to the endpoint 0 IN transfer, ignoring wLength: with a 10-byte
    qualifier and wLength = 2 the IN transfer carries 10 bytes, not
    min(10, 2) = 2, while the DEVICE case trims to 2 bytes for the same
    wLength. *)
Theorem getDescriptor_qualifier_untrimmed :
  trace (snd (getDescriptor get_qualifier_2 ust0)) =
    [OpTransfer 0 IN false (Some dev_qualifier); OpTransfer 0 OUT false None] /\
  Z.of_nat (List.length dev_qualifier) = 10 /\ Length get_qualifier_2 = 2 /\
  trace (snd (getDescriptor get_device_2 ust0)) =
    [OpTransfer 0 IN false (Some (trim dev_descriptor 2)); OpTransfer 0 OUT false None] /\
  Z.of_nat (List.length (trim dev_descriptor 2)) = Z.min 18 2.
Proof. vm_compute. repeat split. Qed.




(** C6: a GET_DESCRIPTOR(STRING) whose index (the high byte of the 16-bit
    wValue) is not below the number of configured strings stalls endpoint
    0 IN, returns the invalid-index error and performs no transfer, both
    from [getDescriptor] and from [handleStandardSetup]. *)
Theorem getDescriptor_string_out_of_range (s : SetupData) (st : USt) :
  0 <= Value s < 65536 ->
  Z.land (Value s) 255 = STRING ->
  Z.of_nat (List.length (Strings (dev st))) <= Z.shiftr (Value s) 8 ->
  getDescriptor s st =
    (Some (ErrInvalidStringIndex (Z.shiftr (Value s) 8)),
     mkUSt (dev st) (trace st ++ [OpStall 0 IN]) (results st)) /\
  (Request s = GET_DESCRIPTOR ->
   handleStandardSetup s st =
    (Some (ErrInvalidStringIndex (Z.shiftr (Value s) 8)),
     mkUSt (dev st) (trace st ++ [OpStall 0 IN]) (results st))).
Proof.
  intros Hv Ht Hlen.
  assert (Hi : 0 <= Z.shiftr (Value s) 8 < 256).
  { rewrite Z.shiftr_div_pow2 by lia. change (2 ^ 8) with 256.
    split; [apply Z.div_pos; lia | apply Z.div_lt_upper_bound; lia]. }
  assert (Hg : getDescriptor s st =
    (Some (ErrInvalidStringIndex (Z.shiftr (Value s) 8)),
     mkUSt (dev st) (trace st ++ [OpStall 0 IN]) (results st))).
  { unfold getDescriptor, bind, get_dev. cbv zeta. rewrite Ht.
    remember (Z.shiftr (Value s) 8) as idx eqn:Hidx. cbn. rewrite Z.mod_small by lia.
    replace (Z.of_nat (List.length (Strings (dev st))) <? idx + 1)
      with true by (symmetry; apply Z.ltb_lt; lia).
    reflexivity. }
  split; [exact Hg|].
  intros Hr. unfold handleStandardSetup. rewrite Hr. cbn. exact Hg.
Qed.

Lemma getDescriptor_string_out_of_range_witness :
  getDescriptor (mkSetup 128 GET_DESCRIPTOR 771 0 255) ust0 =
    (Some (ErrInvalidStringIndex 3), mkUSt dev0 [OpStall 0 IN] []).
Proof.
  refine (proj1 (getDescriptor_string_out_of_range (mkSetup 128 GET_DESCRIPTOR 771 0 255) ust0 _ _ _));
    vm_compute; try split; try reflexivity; discriminate.
Defined.

(** C7 (counterexample): when the IN data transfer on endpoint 0 fails,
    [tx] issues no status-phase OUT transfer. *)
Lemma tx_ep0_no_status_after_error :
  trace (snd (tx 0 false [1; 2] (mkUSt dev0 [] [Some (ErrTransfer 0)]))) =
    [OpTransfer 0 IN false (Some [1; 2])].
Proof. vm_compute. reflexivity. Qed.

(** C7 (amended): [tx] on endpoint 0 performs the IN transfer of the data
    and, exactly when that transfer reports no error, follows it with an
    OUT transfer with no caller buffer (the status phase). *)
Theorem tx_ep0_status_phase (ioc : bool) (data : list Z) (st : USt) :
  trace (snd (tx 0 ioc data st)) =
    trace st ++ [OpTransfer 0 IN ioc (Some data)] ++
    match results st with
    | Some _ :: _ => []
    | _ => [OpTransfer 0 OUT false None]
    end.
Proof.
  destruct st as [d tr rs]. unfold tx, bind, transfer, ret. cbn.
  destruct rs as [|[e|] [|r rs]]; cbn; rewrite <- ?app_assoc; reflexivity.
Qed.

(** C8 (code bug): an unsupported standard request (SYNCH_FRAME) makes
    [handleSetup] stall endpoint 0 IN, yet it returns [nil]: the standard
    handler's "unsupported request code" error is discarded. *)
Theorem handleSetup_stall_without_error :
  handleSetup (Some synch_frame) ust0 = (None, mkUSt dev0 [OpStall 0 IN] []) /\
  fst (handleStandardSetup synch_frame ust0) = Some (ErrUnsupportedRequest SYNCH_FRAME).
Proof. vm_compute. split; reflexivity. Qed.

End DispatchFacts.

(** * Properties of the transfer engine *)

Module TransferFacts.
Import Transfer HwInputs.

Lemma poll_events k rd p s s' : poll k rd p s = Some s' -> events s' = events s.
Proof.
  revert s; induction k as [|k IH]; cbn; intros s H; [discriminate|].
  destruct (p _); [injection H as <-; reflexivity | exact (IH _ H)].
Qed.

Lemma poll_for_events d rd p s : events (snd (poll_for d rd p s)) = events s.
Proof.
  revert s; induction d as [|d IH]; cbn; intros s; [reflexivity|].
  destruct (p _); [reflexivity | exact (IH _)].
Qed.

Lemma poll_signal_events dn k rd p s b s' :
  poll_signal dn k rd p s = Some (b, s') -> events s' = events s.
Proof.
  revert s; induction k as [|k IH]; cbn; intros s H; [discriminate|].
  destruct (p _); [injection H as <- <-; reflexivity|].
  destruct (dn _); [injection H as <- <-; reflexivity | exact (IH _ H)].
Qed.

Lemma wait_events rd p fuel s u s' :
  wait rd p fuel s = Some (u, s') -> events s' = events s.
Proof.
  unfold wait. destruct (poll fuel rd p s) eqn:E; intros H; [|discriminate].
  injection H as _ <-. exact (poll_events _ _ _ _ _ E).
Qed.

Lemma wait_complete_events hw n pos fuel s r s' :
  wait_complete hw n pos fuel s = Some (r, s') -> events s' = events s.
Proof.
  unfold wait_complete, tbind, tret, wait_for, wait_signal.
  destruct (n =? 0).
  - destruct (poll_for _ _ _ s) as [b s1] eqn:E. intros H. injection H as _ <-.
    pose proof (poll_for_events 20 (rd_complete hw) (bit_set pos) s) as Hp.
    rewrite E in Hp. exact Hp.
  - destruct (poll_signal _ _ _ _ s) as [[b s1]|] eqn:E; intros H; [|discriminate].
    injection H as _ <-. exact (poll_signal_events _ _ _ _ _ _ _ E).
Qed.

Lemma free_dtds_eq ds fuel s :
  free_dtds ds fuel s =
    Some (tt, mkTSt (clock s) (events s ++ map (fun d => EFreeDtd (d_idx d)) ds)).
Proof.
  revert s; induction ds as [|d ds IH]; intros s; cbn.
  - rewrite app_nil_r. destruct s; reflexivity.
  - unfold tbind, emit. rewrite IH. cbn. rewrite <- app_assoc. reflexivity.
Qed.

(** [transfer] is the build loop, the waits, [checkDTD], the copy-back and
    the deferred frees, in this order. *)
Lemma transfer_decomp hw n dir ioc buf fuel s r s' :
  transfer hw n dir ioc buf fuel s = Some (r, s') ->
  exists dtds s1 c2 size e s3 s4,
    build_loop hw (Z.to_nat (tsize_of (tbuf dir buf) / dtdLength) + 1) (dir * 16 + n) 0 0
      (tsize_of (tbuf dir buf)) fuel
      (mkTSt (clock s) (events s ++ [EAllocPages (tsize_of (tbuf dir buf))])) = Some (dtds, s1) /\
    checkDTD hw n dir dtds 0 fuel (mkTSt c2 (events s1 ++ [EClearComplete])) = Some ((size, e), s3) /\
    copy_out hw n dir buf (tbuf dir buf) (tsize_of (tbuf dir buf)) size e fuel s3 = Some (r, s4) /\
    events s' = events s4 ++ map (fun d => EFreeDtd (d_idx d)) (rev dtds) ++ [EFreePages].
Proof.
  unfold transfer. cbv zeta. unfold tbind at 1. unfold emit at 1. cbn beta iota.
  unfold tbind at 1.
  destruct (build_loop _ _ _ _ _ _ _ _) as [[dtds s1]|] eqn:E1; [|discriminate].
  unfold tbind at 1.
  destruct (wait _ _ _ s1) as [[u s2]|] eqn:E2; [|discriminate].
  unfold tbind at 1.
  destruct (wait_complete _ _ _ _ s2) as [[c s3]|] eqn:E3; [|discriminate].
  unfold tbind at 1. unfold emit at 1. cbn beta iota.
  unfold tbind at 1.
  destruct (checkDTD _ _ _ _ _ _ _) as [[[size e] s4]|] eqn:E4; [|discriminate].
  unfold tbind at 1.
  destruct (copy_out _ _ _ _ _ _ _ _ _ _) as [[r0 s5]|] eqn:E5; [|discriminate].
  unfold tbind at 1. rewrite free_dtds_eq. unfold tbind, emit, tret. cbn.
  intros H. injection H as <- <-.
  apply wait_events in E2. apply wait_complete_events in E3.
  exists dtds, s1, (clock s3), size, e, s4, s5.
  rewrite E3, E2 in E4.
  repeat split; auto. cbn. rewrite <- app_assoc. reflexivity.
Qed.

Import Observe.

Ltac tm_step H :=
  unfold tbind at 1 in H; cbn beta iota zeta in H;
  match type of H with
  | (match ?m with Some _ => _ | None => _ end = _) =>
      let E := fresh "E" in destruct m as [[? ?]|] eqn:E; [|discriminate H]
  end; cbn beta iota in H.

Lemma nextDTD_events hw idx fuel s u s' :
  nextDTD hw idx fuel s = Some (u, s') -> events s' = events s ++ [ENext idx].
Proof.
  unfold nextDTD, tbind, emit. destruct (wait _ _ fuel s) as [[v s1]|] eqn:E; [|discriminate].
  intros H. injection H as _ <-. apply wait_events in E. cbn. rewrite E. reflexivity.
Qed.

Lemma build_loop_spec hw k pos i idx tsize fuel s ds s' :
  build_loop hw k pos i idx tsize fuel s = Some (ds, s') ->
  exists ext, events s' = events s ++ ext /\ built ext = chunks k i tsize /\
    map d_size ds = chunks k i tsize /\
    map d_idx ds = seq idx (List.length ds) /\ Forall not_free ext.
Proof.
  revert pos i idx s ds s'.
  induction k as [|k IH]; intros pos i idx s ds s' H; cbn [build_loop] in H.
  - injection H as <- <-. exists []. rewrite app_nil_r. repeat split; constructor.
  - unfold tbind at 1, emit at 1 in H. cbn beta iota in H.
    tm_step H. tm_step H. tm_step H.
    rename E into Ep, E0 into Eq, E1 into Er.
    assert (Hp : events t = events s ++
              [EBuild idx i (if tsize <? i + dtdLength then tsize - i else dtdLength)] ++
              (if Nat.eqb idx 0 then [] else [ELink (pred idx) idx])).
    { destruct (Nat.eqb idx 0); cbn in Ep; injection Ep as _ <-; cbn;
        rewrite ?app_nil_r, <- ?app_assoc; reflexivity. }
    assert (Hq : events t0 = events t ++ (if b then [EClear; ENext idx; EPrime] else [])).
    { destruct b; cbn in Eq.
      - unfold tbind, emit in Eq. cbn in Eq.
        destruct (nextDTD _ _ _ _) as [[v s2]|] eqn:En; [|discriminate].
        injection Eq as _ <-. apply nextDTD_events in En. cbn in En |- *.
        rewrite En, <- !app_assoc. reflexivity.
      - injection Eq as _ <-. rewrite app_nil_r. reflexivity. }
    cbn in H. injection H as <- <-.
    destruct (i + dtdLength <? tsize) eqn:Ec.
    + destruct (IH _ _ _ _ _ _ Er) as (ext & He & Hb & Hs & Hi & Hf).
      eexists. split.
      { rewrite He, Hq, Hp, <- !app_assoc. reflexivity. }
      cbn [chunks]. rewrite Ec.
      split; [|split; [|split]].
      * unfold built in *. rewrite !flat_map_app, Hb. destruct (Nat.eqb idx 0), b; reflexivity.
      * cbn. rewrite Hs. reflexivity.
      * cbn. rewrite Hi. reflexivity.
      * repeat (apply Forall_app; split); try assumption;
          repeat constructor; destruct (Nat.eqb idx 0), b; repeat constructor.
    + cbn in Er. injection Er as <- <-.
      eexists. split.
      { rewrite Hq, Hp, <- !app_assoc. reflexivity. }
      cbn [chunks]. rewrite Ec.
      split; [|split; [|split]].
      * unfold built. rewrite !flat_map_app. destruct (Nat.eqb idx 0), b; reflexivity.
      * reflexivity.
      * reflexivity.
      * repeat (apply Forall_app; split);
          repeat constructor; destruct (Nat.eqb idx 0), b; repeat constructor.
Qed.

Lemma chunks_spec k i tsize :
  0 <= i <= tsize -> (1 <= k)%nat -> tsize - i <= Z.of_nat k * dtdLength ->
  sum (chunks k i tsize) = tsize - i /\
  Forall (fun x => 0 <= x <= dtdLength) (chunks k i tsize) /\
  Z.of_nat (List.length (chunks k i tsize)) =
    (if tsize - i =? 0 then 1 else (tsize - i + dtdLength - 1) / dtdLength).
Proof.
  change dtdLength with 20480.
  revert i. induction k as [|k IH]; intros i Hi Hk Hx; [lia|].
  cbn [chunks]. change dtdLength with 20480.
  destruct (i + 20480 <? tsize) eqn:Ec.
  - apply Z.ltb_lt in Ec.
    replace (tsize <? i + 20480) with false by (symmetry; apply Z.ltb_ge; lia).
    assert (Hk' : (1 <= k)%nat).
    { destruct k; [|lia]. cbn in Hx. lia. }
    destruct (IH (i + 20480)) as (Hs & Hf & Hl); [lia | exact Hk' | lia |].
    split; [|split].
    + unfold sum in *. cbn [fold_right]. rewrite Hs. lia.
    + constructor; [lia | exact Hf].
    + cbn [List.length]. rewrite Nat2Z.inj_succ, Hl.
      replace (tsize - (i + 20480) =? 0) with false by (symmetry; apply Z.eqb_neq; lia).
      replace (tsize - i =? 0) with false by (symmetry; apply Z.eqb_neq; lia).
      replace (tsize - i + 20480 - 1) with ((tsize - (i + 20480) + 20480 - 1) + 1 * 20480) by lia.
      rewrite Z.div_add by lia. lia.
  - apply Z.ltb_ge in Ec.
    assert (Hh : (if tsize <? i + 20480 then tsize - i else 20480) = tsize - i).
    { destruct (tsize <? i + 20480) eqn:E; [reflexivity|]. apply Z.ltb_ge in E. lia. }
    rewrite Hh. split; [|split].
    + cbn. lia.
    + constructor; [lia | constructor].
    + cbn [List.length]. destruct (tsize - i =? 0) eqn:E0; [reflexivity|].
      apply Z.eqb_neq in E0.
      replace (tsize - i + 20480 - 1) with ((tsize - i - 1) + 1 * 20480) by lia.
      rewrite Z.div_add, Z.div_small by lia. reflexivity.
Qed.

Lemma checkDTD_spec hw n dir ds sz fuel s r s' :
  checkDTD hw n dir ds sz fuel s = Some (r, s') ->
  exists ext, events s' = events s ++ ext /\ Forall wait_event ext /\
    (snd r = None -> forall d, In d ds ->
       In (EInactive (d_idx d)) ext \/ In (ECancelled (d_idx d)) ext).
Proof.
  revert sz s. induction ds as [|d ds IH]; intros sz s H; cbn [checkDTD] in H.
  - injection H as <- <-. exists []. rewrite app_nil_r. repeat split; [constructor|].
    intros _ d' [].
  - tm_step H. rename E into Ew.
    assert (Hw : exists ew, events t = events s ++ [ew] /\ wait_event ew /\
              (ew = EInactive (d_idx d) \/ ew = ECancelled (d_idx d))).
    { destruct (n =? 0).
      - unfold tbind, wait_for, read, emit in Ew.
        destruct (poll_for _ _ _ s) as [b1 s1] eqn:E1.
        destruct (wait _ _ fuel (tick s1)) as [[v s2]|] eqn:E2; [|discriminate].
        injection Ew as _ <-. apply wait_events in E2.
        pose proof (poll_for_events 1000 (rd_dtd_token hw (d_idx d)) inactive s) as Hp.
        rewrite E1 in Hp. cbn in Hp.
        exists (EInactive (d_idx d)). cbn. rewrite E2. cbn. rewrite Hp.
        split; [reflexivity | split; [exists (d_idx d); left; reflexivity | left; reflexivity]].
      - unfold tbind, wait_signal, emit in Ew.
        destruct (poll_signal _ _ _ _ s) as [[ok s1]|] eqn:E1; [|discriminate].
        injection Ew as _ <-. apply poll_signal_events in E1.
        exists (if ok then EInactive (d_idx d) else ECancelled (d_idx d)). cbn. rewrite E1.
        split; [reflexivity|]. destruct ok.
        + split; [exists (d_idx d); left; reflexivity | left; reflexivity].
        + split; [exists (d_idx d); right; reflexivity | right; reflexivity]. }
    destruct Hw as (ew & Het & Hwe & Hwd).
    unfold tbind, read in H. cbn beta iota zeta in H.
    destruct (negb _).
    + injection H as <- <-. exists [ew]. cbn. rewrite Het.
      split; [reflexivity | split; [repeat constructor; exact Hwe | cbn; discriminate]].
    + destruct (_ && _).
      * injection H as <- <-. exists [ew]. cbn. rewrite Het.
        split; [reflexivity | split; [repeat constructor; exact Hwe | cbn; discriminate]].
      * apply IH in H. destruct H as (ext & He & Hf & Hd).
        exists (ew :: ext). cbn in He. rewrite He, Het, <- app_assoc.
        split; [reflexivity | split; [constructor; assumption|]].
        intros Hn d' [<- | Hin].
        -- destruct Hwd as [-> | ->]; [left | right]; left; reflexivity.
        -- destruct (Hd Hn d' Hin); [left | right]; right; assumption.
Qed.

Lemma copy_out_events hw n dir buf buf' ts size e fuel s r s' :
  copy_out hw n dir buf buf' ts size e fuel s = Some (r, s') ->
  events s' = events s \/ events s' = events s ++ [ECopy size].
Proof.
  unfold copy_out, tbind, emit, tret.
  destruct (_ && _ && _); [destruct (_ && _)|]; intros H; injection H as _ <-; cbn; auto.
Qed.

Lemma built_app l1 l2 : built (l1 ++ l2) = built l1 ++ built l2.
Proof. unfold built. apply flat_map_app. Qed.

Lemma built_waits l : Forall wait_event l -> built l = [].
Proof.
  unfold built. induction 1 as [|e l [j [-> | ->]] _ IH]; cbn; auto.
Qed.

Lemma waits_not_free l : Forall wait_event l -> Forall not_free l.
Proof.
  apply Forall_impl. intros e [j [-> | ->]]; exact I.
Qed.

Lemma built_frees ds : built (map (fun d => EFreeDtd (d_idx d)) ds) = [].
Proof. unfold built. induction ds as [|d ds IH]; cbn; auto. Qed.

Lemma copy_out_err hw n dir buf buf' ts size e fuel s out e' cb m s' :
  copy_out hw n dir buf buf' ts size e fuel s = Some (XDone out e' cb m, s') -> e' = e.
Proof.
  unfold copy_out, tbind, emit, tret.
  destruct (_ && _ && _); [destruct (_ && _)|]; intros H; injection H; congruence.
Qed.

Lemma prefix_split {A} (P F l1 l2 : list A) (x : A) :
  P ++ F = l1 ++ x :: l2 -> ~ In x P -> exists m, l1 = P ++ m.
Proof.
  revert l1; induction P as [|p P IH]; intros l1 H Hn.
  - exists l1; reflexivity.
  - destruct l1 as [|y l1]; cbn in H; injection H as Hp H.
    + subst p. exfalso. apply Hn. left. reflexivity.
    + subst y. destruct (IH l1 H) as [m ->]; [intros Hx; apply Hn; right; exact Hx|].
      exists m. reflexivity.
Qed.

(** C2 (amended): a transfer of [S] bytes (after the OUT default buffer
    is applied) builds its dTDs of [dtdLength] bytes and at most that
    many, in order and summing to [S]: ceil(S/dtdLength) of them when
    [S > 0], and one empty dTD when [S = 0]. *)
Theorem transfer_dtd_chunks hw n dir ioc buf fuel t r s' :
  transfer hw n dir ioc buf fuel (mkTSt t []) = Some (r, s') ->
  Z.of_nat (List.length (built (events s'))) =
    (if tsize_of (tbuf dir buf) =? 0 then 1
     else (tsize_of (tbuf dir buf) + dtdLength - 1) / dtdLength) /\
  Forall (fun x => 0 <= x <= dtdLength) (built (events s')) /\
  sum (built (events s')) = tsize_of (tbuf dir buf).
Proof.
  intros H.
  destruct (transfer_decomp _ _ _ _ _ _ _ _ _ H)
    as (dtds & s1 & c2 & size & e & s3 & s4 & Hb & Hc & Hco & He).
  remember (tsize_of (tbuf dir buf)) as S eqn:HS.
  apply build_loop_spec in Hb as (ext & He1 & Hbu & _).
  apply checkDTD_spec in Hc as (ext2 & He2 & Hf2 & _).
  assert (Hbl : built (events s') = chunks (Z.to_nat (S / dtdLength) + 1) 0 S).
  { rewrite He, !built_app, built_frees.
    destruct (copy_out_events _ _ _ _ _ _ _ _ _ _ _ _ Hco) as [Hx | Hx];
      rewrite Hx, ?built_app, He2; cbn [events] in He1 |- *; rewrite He1;
      rewrite !built_app, Hbu, (built_waits _ Hf2); cbn; rewrite ?app_nil_r; reflexivity. }
  assert (H0 : 0 <= S) by (rewrite HS; unfold tsize_of; lia).
  assert (Hd : 0 <= S / dtdLength) by (apply Z.div_pos; [lia | reflexivity]).
  destruct (chunks_spec (Z.to_nat (S / dtdLength) + 1) 0 S) as (Hs & Hf & Hl).
  - lia.
  - lia.
  - rewrite Nat2Z.inj_add, Z2Nat.id by exact Hd.
    pose proof (Z.mod_pos_bound S dtdLength) as Hm.
    pose proof (Z.div_mod S dtdLength) as Hdm.
    change dtdLength with 20480 in *. lia.
  - rewrite Z.sub_0_r in Hs, Hl. rewrite Hbl, Hl, Hs.
    split; [reflexivity | split; [exact Hf | reflexivity]].
Qed.



Lemma poll_never k rd p s : (forall t, p (u32 (rd t)) = false) -> poll k rd p s = None.
Proof.
  intros Hp. revert s; induction k as [|k IH]; intros s; cbn; [reflexivity|].
  rewrite Hp. apply IH.
Qed.

Lemma poll_for_clock d rd p s : (clock (snd (poll_for d rd p s)) <= clock s + d)%nat.
Proof.
  revert s; induction d as [|d IH]; intros s; cbn; [lia|].
  destruct (p _); cbn; [lia|]. specialize (IH (tick s)). cbn in IH. lia.
Qed.

Lemma checkDTD_no_timeout hw n dir ds sz fuel s size e s' :
  checkDTD hw n dir ds sz fuel s = Some ((size, e), s') -> e <> Some TErrTimeout.
Proof.
  revert sz s; induction ds as [|d ds IH]; intros sz s H; cbn [checkDTD] in H.
  - unfold tret in H. injection H as _ <- _. discriminate.
  - tm_step H. unfold tbind, read in H. cbn beta iota zeta in H.
    destruct (negb _); [injection H as _ <- _; discriminate|].
    destruct (_ && _); [injection H as _ <- _; discriminate | exact (IH _ _ H)].
Qed.

(** On endpoint 0 a first dTD that never becomes inactive keeps
    [transfer] from returning, whatever the polling budget. *)
Lemma transfer_ep0_stuck hw dir ioc buf :
  (forall t, inactive (u32 (rd_dtd_token hw 0 t)) = false) ->
  forall fuel s, transfer hw 0 dir ioc buf fuel s = None.
Proof.
  intros Hst fuel s.
  destruct (transfer hw 0 dir ioc buf fuel s) as [[r s']|] eqn:H; [exfalso | reflexivity].
  destruct (transfer_decomp _ _ _ _ _ _ _ _ _ H)
    as (dtds & s1 & c2 & size & e & s3 & s4 & Hb & Hc & _).
  apply build_loop_spec in Hb as (_ & _ & _ & Hs & Hi & _).
  destruct dtds as [|d ds].
  - rewrite Nat.add_1_r in Hs. cbn in Hs. discriminate.
  - cbn in Hi. injection Hi as Hd _.
    cbn [checkDTD] in Hc. rewrite Z.eqb_refl, Hd in Hc.
    tm_step Hc.
    unfold tbind, wait_for, read in E.
    destruct (poll_for _ _ _ _) as [b1 s6].
    unfold wait in E. rewrite (poll_never _ _ _ _ Hst) in E. discriminate.
Qed.

(** C3 (where the code departs from it): on endpoint 0 only the
    completion wait is bounded (at most 20 polls); a first dTD that stays
    active keeps [transfer] from ever returning; and no return of
    [transfer] on endpoint 0 reports the completion timeout, which
    [size, err := checkDTD(...)] overwrites. *)
Theorem transfer_ep0_waits hw dir ioc buf :
  ((forall t, inactive (u32 (rd_dtd_token hw 0 t)) = false) ->
     forall fuel s, transfer hw 0 dir ioc buf fuel s = None) /\
  (forall fuel s out e cb m s',
     transfer hw 0 dir ioc buf fuel s = Some (XDone out e cb m, s') -> e <> Some TErrTimeout) /\
  (forall fuel s, exists r s', wait_complete hw 0 (dir * 16 + 0) fuel s = Some (r, s') /\
     (clock s' <= clock s + 20)%nat).
Proof.
  split; [exact (transfer_ep0_stuck hw dir ioc buf) | split].
  - intros fuel s out e cb m s' H.
    destruct (transfer_decomp _ _ _ _ _ _ _ _ _ H)
      as (dtds & s1 & c2 & size & e0 & s3 & s4 & _ & Hc & Hco & _).
    rewrite (copy_out_err _ _ _ _ _ _ _ _ _ _ _ _ _ _ _ Hco).
    exact (checkDTD_no_timeout _ _ _ _ _ _ _ _ _ _ Hc).
  - intros fuel s. unfold wait_complete. rewrite Z.eqb_refl.
    unfold tbind, wait_for, tret.
    pose proof (poll_for_clock 20 (rd_complete hw) (bit_set (dir * 16 + 0)) s) as Hc.
    destruct (poll_for _ _ _ s) as [b s'].
    eexists _, s'. split; [reflexivity | exact Hc].
Qed.

(** Witness for C2: 50000 bytes give the dTDs 20480, 20480 and 9040. *)
Lemma transfer_dtd_chunks_witness :
  exists r s',
    transfer hw_good 1 IN false (Some (repeat 0 (Z.to_nat 50000))) 5%nat st0 = Some (r, s') /\
    built (events s') = [20480; 20480; 9040] /\
    Z.of_nat (List.length (built (events s'))) =
      (if 50000 =? 0 then 1 else (50000 + dtdLength - 1) / dtdLength) /\
    Forall (fun x => 0 <= x <= dtdLength) (built (events s')) /\
    sum (built (events s')) = 50000.
Proof.
  assert (Hb : option_map (fun p => built (events (snd p)))
                 (transfer hw_good 1 IN false (Some (repeat 0 (Z.to_nat 50000))) 5%nat st0) =
               Some [20480; 20480; 9040]) by (vm_compute; reflexivity).
  destruct (transfer hw_good 1 IN false (Some (repeat 0 (Z.to_nat 50000))) 5%nat st0)
    as [[r s']|] eqn:E; [|discriminate Hb].
  exists r, s'. split; [reflexivity|]. split.
  - cbn in Hb. injection Hb as Hb. exact Hb.
  - exact (transfer_dtd_chunks _ _ _ _ _ _ _ _ _ E).
Defined.

(** Counterexample to C2: a zero-length transfer (an [ack]) builds one
    dTD, while ceil(0 / 20480) = 0. *)
Lemma transfer_zero_size_one_dtd :
  exists r s', transfer hw_good 1 IN false None 5%nat st0 = Some (r, s') /\
    built (events s') = [0] /\ tsize_of (tbuf IN None) = 0 /\ (0 + 20480 - 1) / 20480 = 0.
Proof.
  exists (XDone None None None 0),
    (mkTSt 5 [EAllocPages 0; EBuild 0 0 0; EClear; ENext 0; EPrime; EClearComplete;
              EInactive 0; EFreeDtd 0; EFreePages]).
  split; [vm_compute; reflexivity | split; [reflexivity | split; reflexivity]].
Qed.

(** Witness for C3: a stuck first dTD on [hw_stuck]; on [hw_late] the
    completion deadline expires after 20 polls and the transfer still
    returns no error. *)
Lemma transfer_ep0_waits_witness :
  transfer hw_stuck 0 IN false (Some [1]) 50%nat st0 = None /\
  transfer hw_late 0 IN false (Some [1]) 5%nat st0 =
    Some (XDone None None (Some [1]) 1,
          mkTSt 26 [EAllocPages 1; EBuild 0 0 1; EClear; ENext 0; EPrime; EClearComplete;
                    EInactive 0; EFreeDtd 0; EFreePages]) /\
  (None : option terr) <> Some TErrTimeout /\
  exists r s', wait_complete hw_late 0 (IN * 16 + 0) 5%nat st0 = Some (r, s') /\
    (clock s' <= 20)%nat.
Proof.
  destruct (transfer_ep0_waits hw_stuck IN false (Some [1])) as [H1 _].
  destruct (transfer_ep0_waits hw_late IN false (Some [1])) as [_ [H2 H3]].
  assert (E : transfer hw_late 0 IN false (Some [1]) 5%nat st0 =
    Some (XDone None None (Some [1]) 1,
          mkTSt 26 [EAllocPages 1; EBuild 0 0 1; EClear; ENext 0; EPrime; EClearComplete;
                    EInactive 0; EFreeDtd 0; EFreePages])) by (vm_compute; reflexivity).
  split; [apply H1; intros t; reflexivity|].
  split; [exact E|].
  split; [exact (H2 _ _ _ _ _ _ _ E) | exact (H3 5%nat st0)].
Defined.

(** Counterexample to C3: on [hw_stuck] no polling budget makes an
    endpoint 0 transfer return; on [hw_late] the completion wait times
    out, yet [transfer] returns a nil error. *)
Lemma transfer_ep0_unbounded_timeout_lost :
  (~ exists fuel r, transfer hw_stuck 0 IN false (Some [1]) fuel st0 = Some r) /\
  wait_complete hw_late 0 (IN * 16 + 0) 5%nat st0 = Some (Some TErrTimeout, mkTSt 20 []) /\
  transfer hw_late 0 IN false (Some [1]) 5%nat st0 =
    Some (XDone None None (Some [1]) 1,
          mkTSt 26 [EAllocPages 1; EBuild 0 0 1; EClear; ENext 0; EPrime; EClearComplete;
                    EInactive 0; EFreeDtd 0; EFreePages]).
Proof.
  split.
  - intros (fuel & r & H). rewrite transfer_ep0_stuck in H; [discriminate | intros t; reflexivity].
  - split; vm_compute; reflexivity.
Qed.





End TransferFacts.

(** * Properties of the run loop *)

Module RunLoopFacts.
Import Dispatch RunLoop.

Lemma bind_dev {A B} (m : UM A) (f : A -> UM B) :
  (forall st, dev (snd (m st)) = dev st) ->
  (forall a st, dev (snd (f a st)) = dev st) ->
  forall st, dev (snd (bind m f st)) = dev st.
Proof.
  intros Hm Hf st. unfold bind. specialize (Hm st).
  destruct (m st) as [a st']. rewrite Hf. exact Hm.
Qed.

Lemma ret_dev {A} (a : A) st : dev (snd (ret a st)) = dev st.
Proof. reflexivity. Qed.

Lemma emit_dev o st : dev (snd (emit o st)) = dev st.
Proof. reflexivity. Qed.

Lemma transfer_dev n dir ioc buf st : dev (snd (transfer n dir ioc buf st)) = dev st.
Proof. unfold transfer. destruct (results st); reflexivity. Qed.

Lemma tx_dev n ioc data st : dev (snd (tx n ioc data st)) = dev st.
Proof.
  unfold tx. apply bind_dev; [apply transfer_dev|].
  intros e st'. destruct (_ && _); [apply transfer_dev | apply ret_dev].
Qed.

Create HintDb devdb.
#[local] Hint Resolve bind_dev ret_dev emit_dev transfer_dev tx_dev : devdb.

Lemma runOverride_dev s st : dev (snd (runOverride s st)) = dev st.
Proof.
  unfold runOverride, bind at 1, get_dev. cbn beta iota.
  destruct (Setup (dev st)) as [f|]; [|reflexivity].
  destruct (f s) as [[[in_ ack_] dn] e].
  destruct e as [e|].
  - unfold stall. apply bind_dev; auto with devdb.
  - apply bind_dev.
    + intros st'. destruct (negb _); [apply tx_dev|].
      destruct ack_; [apply transfer_dev | apply ret_dev].
    + intros e' st'. destruct (_ || _); apply ret_dev.
Qed.

Lemma handleClassSpecificSetup_dev s st : dev (snd (handleClassSpecificSetup s st)) = dev st.
Proof.
  unfold handleClassSpecificSetup, ack, stall.
  destruct (_ =? _); [apply transfer_dev | apply bind_dev; auto with devdb].
Qed.

Lemma handleStandardSetup_set_conf s st :
  Request s = SET_CONFIGURATION ->
  dev (snd (handleStandardSetup s st)) = set_conf (dev st) ((Z.shiftr (Value s) 8) mod 256).
Proof.
  intros H. unfold handleStandardSetup. rewrite H. cbn -[set_conf ack Z.shiftr Z.modulo].
  unfold ack. apply transfer_dev.
Qed.

(** After a SET_CONFIGURATION, the device's configuration value is the
    requested one or unchanged (the override returned first). *)
Lemma handleSetup_set_configuration s st :
  Request s = SET_CONFIGURATION ->
  let c := ConfigurationValue (dev (snd (handleSetup (Some s) st))) in
  c = ConfigurationValue (dev st) \/ c = (Z.shiftr (Value s) 8) mod 256.
Proof.
  intros H. cbv zeta. unfold handleSetup. cbn iota. unfold bind.
  pose proof (runOverride_dev s st) as Ho.
  destruct (runOverride s st) as [o st1]. cbn in Ho.
  destruct o as [e|]; [left; rewrite <- Ho; reflexivity|].
  destruct (RequestType s =? 33).
  - left. pose proof (handleClassSpecificSetup_dev s st1) as Hc.
    destruct (handleClassSpecificSetup s st1) as [a st2]. unfold ret. cbn [snd] in Hc |- *.
    rewrite Hc, Ho. reflexivity.
  - right. pose proof (handleStandardSetup_set_conf s st1 H) as Hc.
    destruct (handleStandardSetup s st1) as [a st2]. unfold ret. cbn [snd] in Hc |- *.
    rewrite Hc. reflexivity.
Qed.

Lemma stop_endpoints_levents l : levents (stop_endpoints l) = levents l ++ stop_events l.
Proof.
  unfold stop_endpoints, stop_events. destruct (done l); [reflexivity|].
  rewrite app_nil_r. reflexivity.
Qed.


(** [Start]'s initial state satisfies [inv]. *)
Lemma inv_initial d : ConfigurationValue d = 0 -> inv (mkLSt 0 None 0 [] [] (mkUSt d [] [])).
Proof. intros H. split; [symmetry; exact H | split; [reflexivity | intros t []]]. Qed.




End RunLoopFacts.
